(** * The goweb plugin of protoc-gen-go: route table and HTTP adapters

    A shallow embedding of [internal/grpc/grpc.go].  The plugin prints Go
    source text: for every service a router constructor [New<S>Mux] that
    registers one path per method, and for every method an HTTP handler that
    bridges a request to the typed service call.

    The development has three layers:
    - Go strings and the library calls the plugin makes on them;
    - the plugin itself, as a printer in a small output monad;
    - the printed Go code, as a syntax tree with a printer and an
      interpreter, so that statements about what a printed handler does at
      request time can be made and tied to the printed text. *)

From Stdlib Require Import String Ascii List Bool Arith Lia DecimalString.
Import ListNotations.
Local Open Scope list_scope.
Local Open Scope string_scope.

(** ** Go strings *)

(** A Go string is a sequence of bytes: [string] over 8-bit [ascii]. *)

(** The byte 0x22, the double quote. *)
Definition quote : ascii := ascii_of_nat 34.

(** The byte 0x09, which the plugin uses to indent the printed code. *)
Definition tab : string := String (ascii_of_nat 9) EmptyString.

(** The byte 0x5c, the escape character of an interpreted Go string
    literal. *)
Definition backslash : ascii := ascii_of_nat 92.

(** The byte 0x0a. *)
Definition newline : ascii := ascii_of_nat 10.

(** [strings.Split(s, sep)] for a separator of one byte, the only way the
    plugin calls it: the pieces of [s] between the occurrences of [sep], in
    order; one piece more than there are occurrences. *)
Fixpoint Split (s : string) (sep : ascii) : list string :=
  match s with
  | EmptyString => [EmptyString]
  | String c rest =>
      if Ascii.eqb c sep then EmptyString :: Split rest sep
      else match Split rest sep with
           | piece :: pieces => String c piece :: pieces
           | [] => [String c EmptyString]
           end
  end.

(** The number of occurrences of a byte in a string. *)
Fixpoint count (s : string) (c : ascii) : nat :=
  match s with
  | EmptyString => 0
  | String d rest => (if Ascii.eqb d c then 1 else 0) + count rest c
  end.

(** The variadic string arguments of one call, joined without separator. *)
Definition concatArgs (args : list string) : string :=
  fold_right String.append EmptyString args.

(** [strings.ToLower] on ASCII text: the letters A to Z are moved to a to z,
    every other byte is kept.  The plugin's functions below are parametric
    in [ToLower]; this instance serves the concrete examples, whose strings
    are ASCII. *)
Definition lowerByte (c : ascii) : ascii :=
  let n := nat_of_ascii c in
  if Nat.leb 65 n && Nat.leb n 90 then ascii_of_nat (n + 32) else c.

Fixpoint asciiToLower (s : string) : string :=
  match s with
  | EmptyString => EmptyString
  | String c rest => String (lowerByte c) (asciiToLower rest)
  end.

(** The byte classes and the capital of a letter, as the generator package
    tests them. *)
Definition isASCIILower (c : ascii) : bool :=
  let n := nat_of_ascii c in Nat.leb 97 n && Nat.leb n 122.

Definition isASCIIDigit (c : ascii) : bool :=
  let n := nat_of_ascii c in Nat.leb 48 n && Nat.leb n 57.

Definition upperByte (c : ascii) : ascii :=
  if isASCIILower c then ascii_of_nat (nat_of_ascii c - 32) else c.

Definition nextIsLower (s : string) : bool :=
  match s with
  | String c _ => isASCIILower c
  | EmptyString => false
  end.

(** Modelled from the spec: [generator.CamelCase], the identifier-casing
    capability of section 6 (stable camel-casing of raw names), is not among
    the source files.  The plugin's functions below are parametric in it.
    This instance serves the concrete examples and follows the function of
    that name in protoc-gen-go: an underscore followed by a lower-case letter
    is dropped and the letter that starts a word is capitalised; a leading
    underscore becomes X; digits are kept and end a word.  [inWord] holds
    while the lower-case tail of a word is being copied. *)
Fixpoint camelWords (inWord : bool) (s : string) : string :=
  match s with
  | EmptyString => EmptyString
  | String c rest =>
      if inWord && isASCIILower c then String c (camelWords true rest)
      else if Ascii.eqb c "_"%char && nextIsLower rest then camelWords false rest
      else if isASCIIDigit c then String c (camelWords false rest)
      else String (upperByte c) (camelWords true rest)
  end.

Definition camelCase (s : string) : string :=
  match s with
  | EmptyString => EmptyString
  | String c rest =>
      if Ascii.eqb c "_"%char then String "X"%char (camelWords false rest)
      else camelWords false s
  end.

(** ** Descriptors *)

(** [pb.MethodDescriptorProto], with the getters the plugin calls.
    [OptionsString] is what [method.GetOptions().String()] returns: the
    options of the method in compact text form. *)
Record MethodDescriptorProto : Type := {
  GetName : string;
  GetInputType : string;
  GetOutputType : string;
  GetServerStreaming : bool;
  GetClientStreaming : bool;
  OptionsString : string
}.

(** [pb.ServiceDescriptorProto]: a name and the methods in declaration
    order. *)
Record ServiceDescriptorProto : Type := {
  ServiceName : string;
  Method : list MethodDescriptorProto
}.

(** ** The output monad *)

(** A run of plugin code either ends normally or panics (Go indexes a slice
    out of range with a run-time panic). *)
Inductive Res (A : Type) : Type :=
| Ok (a : A)
| Panic (msg : string).
Arguments Ok {A} a.
Arguments Panic {A} msg.

(** Plugin code returns a value and the lines it printed through [g.P]. *)
Definition Gen (A : Type) : Type := Res (A * list string).

Definition ret {A : Type} (a : A) : Gen A := Ok (a, []).

Definition bind {A B : Type} (m : Gen A) (f : A -> Gen B) : Gen B :=
  match m with
  | Ok (a, out1) =>
      match f a with
      | Ok (b, out2) => Ok (b, (out1 ++ out2)%list)
      | Panic msg => Panic msg
      end
  | Panic msg => Panic msg
  end.

Declare Scope gen_scope.
Delimit Scope gen_scope with gen.
Notation "x <- m ;; k" := (bind m (fun x => k))
  (at level 61, m at next level, right associativity) : gen_scope.
Notation "m ;; k" := (bind m (fun _ => k))
  (at level 61, right associativity) : gen_scope.
Local Open Scope gen_scope.

(** [g.P(args...)]: one line of output, the arguments joined. *)
Definition P (args : list string) : Gen unit := Ok (tt, [concatArgs args]).

(** [xs[i]]: panics when [i] is out of range. *)
Definition index (xs : list string) (i : nat) : Gen string :=
  match nth_error xs i with
  | Some x => ret x
  | None => Panic "index out of range"
  end.

(** [for _, x := range xs { body }]. *)
Fixpoint forRange {A : Type} (xs : list A) (body : A -> Gen unit) : Gen unit :=
  match xs with
  | [] => ret tt
  | x :: rest => body x ;; forRange rest body
  end.

(** The lines a run printed, when it did not panic. *)
Definition printed {A : Type} (m : Gen A) : option (list string) :=
  match m with
  | Ok (_, out) => Some out
  | Panic _ => None
  end.

(** The [i]-th line a run printed, counted from 0. *)
Definition printedLine {A : Type} (m : Gen A) (i : nat) : option string :=
  match m with
  | Ok (_, out) => nth_error out i
  | Panic _ => None
  end.

(** The value a run returned, when it did not panic. *)
Definition returned {A : Type} (m : Gen A) : option A :=
  match m with
  | Ok (a, _) => Some a
  | Panic _ => None
  end.

(** A printed line that registers a route. *)
Definition isRouteLine (line : string) : bool :=
  String.prefix "router.Handle(" line.

(** ** The printed Go code *)

#[local] Set Warnings "-register-all".

(** The statements the printed handlers are made of. *)
Inductive stmt : Type :=
| NewIn (inType : string)          (* in := T{} *)
| ReadAllBody                      (* content, err := ioutil.ReadAll(r.Body) *)
| DeferCloseBody                   (* defer r.Body.Close() *)
| IfErr (body : list stmt)         (* if err != nil { body } *)
| WriteHeader (code : nat)         (* w.WriteHeader(code) *)
| WriteErr                         (* w.Write([]byte(err.Error())) *)
| WriteRaw (text : string)         (* w.Write([]byte(`text`)) *)
| LogErr                           (* log.Println(err.Error()) *)
| Return                           (* return *)
| Unmarshal                        (* err = json.Unmarshal(content, &in) *)
| CallHandler (methName : string)  (* res,err := impl.handler.M(context.TODO(),&in) *)
| EncodeRes.                       (* json.NewEncoder(w).Encode(res) *)

(** A handler: a method of the receiver type with the signature of a goji
    handler.  [depth] is the number of tabs before its top-level statements. *)
Record funcDecl : Type := {
  recvType : string;
  funcName : string;
  depth : nat;
  body : list stmt
}.

(** One [router.Handle(prefix+LIT, t.M)] statement of the router constructor:
    the text between the quotes of the literal and the method bound to it. *)
Record route : Type := {
  routeLit : string;
  routeHandler : string
}.

(** All the code printed for one service: the router constructor with its
    routes, the receiver type, and the handlers. *)
Record serviceCode : Type := {
  codeName : string;
  routes : list route;
  handlers : list (string * funcDecl)
}.

(** *** Printer *)

Fixpoint indent (n : nat) : string :=
  match n with
  | O => EmptyString
  | S k => tab ++ indent k
  end.

Definition decimal (n : nat) : string := NilEmpty.string_of_uint (Nat.to_uint n).

Fixpoint printStmt (d : nat) (s : stmt) : list string :=
  match s with
  | NewIn inType => [concatArgs [indent d ++ "in := "; inType; "{}"]]
  | ReadAllBody => [indent d ++ "content, err := ioutil.ReadAll(r.Body)"]
  | DeferCloseBody => [indent d ++ "defer r.Body.Close()"]
  | IfErr stmts =>
      (indent d ++ "if err != nil {")
        :: List.app (flat_map (printStmt (S d)) stmts) [indent d ++ "}"]
  | WriteHeader code => [indent d ++ "w.WriteHeader(" ++ decimal code ++ ")"]
  | WriteErr => [indent d ++ "w.Write([]byte(err.Error()))"]
  | WriteRaw text => [indent d ++ "w.Write([]byte(`" ++ text ++ "`))"]
  | LogErr => [indent d ++ "log.Println(err.Error())"]
  | Return => [indent d ++ "return"]
  | Unmarshal => [indent d ++ "err = json.Unmarshal(content, &in)"]
  | CallHandler methName =>
      [concatArgs [indent d ++ "res,err := impl.handler."; methName; "(context.TODO(),&in)"]]
  | EncodeRes => [indent d ++ "json.NewEncoder(w).Encode(res)"]
  end.

Definition printFunc (f : funcDecl) : list string :=
  concatArgs ["func (impl* "; recvType f; " )"; funcName f;
              "(c web.C, w http.ResponseWriter, r *http.Request) {"]
    :: List.app (flat_map (printStmt (depth f)) (body f)) ["}"].

Definition printRoute (r : route) : string :=
  concatArgs ["router.Handle(prefix+" ++ String quote EmptyString; routeLit r;
              String quote EmptyString ++ ", t."; routeHandler r; ")"].

(** A handler is printed after an empty line and a comment line (the text
    paired with it in [handlers]) and is followed by an empty line. *)
Definition printHandler (h : string * funcDecl) : list string :=
  EmptyString :: fst h :: List.app (printFunc (snd h)) [EmptyString].

Definition printService (c : serviceCode) : list string :=
  let serverType := codeName c ++ "Server" in
  List.app
    [concatArgs ["// Server API for "; codeName c; " service"];
     EmptyString;
     EmptyString;
     concatArgs ["func New"; codeName c; "Mux(h "; serverType; ", prefix string) *web.Mux {"];
     concatArgs [tab ++ "t := _"; serverType; "{}"];
     tab ++ "t.handler = h";
     tab ++ "router := web.New()"]
    (List.app (map printRoute (routes c))
       (List.app
          [tab ++ "return router";
           "}";
           EmptyString;
           concatArgs ["type _"; serverType; " struct {"];
           concatArgs [tab ++ "handler "; serverType];
           "}";
           EmptyString]
          (flat_map printHandler (handlers c)))).

(** *** Interpreter *)

(** The value of an interpreted string literal whose text holds no escape
    character, no quote and no line break is the text itself.  Escape
    sequences are not interpreted here: such a literal has no value in this
    model. *)
Fixpoint plainText (s : string) : bool :=
  match s with
  | EmptyString => true
  | String c rest =>
      negb (Ascii.eqb c backslash) && negb (Ascii.eqb c quote)
        && negb (Ascii.eqb c newline) && plainText rest
  end.

Definition literalValue (text : string) : option string :=
  if plainText text then Some text else None.

(** [router.Handle(prefix+LIT, t.M)] run with a value for [prefix]: the
    pattern that is registered, and the method it is bound to. *)
Definition registerRoute (prefix : string) (r : route) : option (string * string) :=
  match literalValue (routeLit r) with
  | Some v => Some (prefix ++ v, routeHandler r)
  | None => None
  end.

Section Runtime.

(** The Go types of the request message and of the pointer the service
    returns. *)
Variable In Out : Type.

(** What a handler does that can be seen from outside, in order. *)
Inductive event : Type :=
| EvReadAll                                (* the request body is read *)
| EvClose                                  (* the request body is closed *)
| EvWriteHeader (code : nat)               (* a status code is set *)
| EvWrite (data : string)                  (* bytes are written to the response *)
| EvLog (msg : string)                     (* a line goes to the log *)
| EvUnmarshal (content : string)           (* JSON decoding of the body *)
| EvCall (methName : string) (arg : In)    (* the service implementation is called *)
| EvEncode (res : Out).                    (* JSON encoding onto the response *)

(** What a handler meets at request time.  An error is the text its
    [Error()] method returns; [None] is [nil]. *)
Record world : Type := {
  zeroIn : In;
  readAll : string * option string;
  jsonUnmarshal : string -> In -> In * option string;
  service : string -> In -> Out * option string
}.

(** The local variables of a running handler, the deferred calls (the last
    deferred first) and the events so far. *)
Record frame : Type := {
  varIn : option In;
  varContent : string;
  varErr : option string;
  varRes : option Out;
  deferred : list event;
  trace : list event
}.

Inductive outcome : Type :=
| Next      (* go on with the following statement *)
| Returned  (* a return statement was run *)
| Panicked. (* a nil value was used *)

Definition emit (e : event) (fr : frame) : frame :=
  {| varIn := varIn fr; varContent := varContent fr; varErr := varErr fr;
     varRes := varRes fr; deferred := deferred fr;
     trace := (trace fr ++ [e])%list |}.

Fixpoint exec (w : world) (s : stmt) (fr : frame) : frame * outcome :=
  match s with
  | NewIn _ =>
      ({| varIn := Some (zeroIn w); varContent := varContent fr; varErr := varErr fr;
          varRes := varRes fr; deferred := deferred fr; trace := trace fr |}, Next)
  | ReadAllBody =>
      let fr := emit EvReadAll fr in
      ({| varIn := varIn fr; varContent := fst (readAll w); varErr := snd (readAll w);
          varRes := varRes fr; deferred := deferred fr; trace := trace fr |}, Next)
  | DeferCloseBody =>
      ({| varIn := varIn fr; varContent := varContent fr; varErr := varErr fr;
          varRes := varRes fr; deferred := EvClose :: deferred fr;
          trace := trace fr |}, Next)
  | IfErr stmts =>
      match varErr fr with
      | None => (fr, Next)
      | Some _ =>
          (fix block (l : list stmt) (fr : frame) : frame * outcome :=
             match l with
             | [] => (fr, Next)
             | s :: rest =>
                 match exec w s fr with
                 | (fr', Next) => block rest fr'
                 | stop => stop
                 end
             end) stmts fr
      end
  | WriteHeader code => (emit (EvWriteHeader code) fr, Next)
  | WriteErr =>
      match varErr fr with
      | Some e => (emit (EvWrite e) fr, Next)
      | None => (fr, Panicked)
      end
  | WriteRaw text => (emit (EvWrite text) fr, Next)
  | LogErr =>
      match varErr fr with
      | Some e => (emit (EvLog e) fr, Next)
      | None => (fr, Panicked)
      end
  | Return => (fr, Returned)
  | Unmarshal =>
      match varIn fr with
      | Some i =>
          let fr := emit (EvUnmarshal (varContent fr)) fr in
          let r := jsonUnmarshal w (varContent fr) i in
          ({| varIn := Some (fst r); varContent := varContent fr; varErr := snd r;
              varRes := varRes fr; deferred := deferred fr; trace := trace fr |}, Next)
      | None => (fr, Panicked)
      end
  | CallHandler methName =>
      match varIn fr with
      | Some i =>
          let fr := emit (EvCall methName i) fr in
          let r := service w methName i in
          ({| varIn := varIn fr; varContent := varContent fr; varErr := snd r;
              varRes := Some (fst r); deferred := deferred fr; trace := trace fr |}, Next)
      | None => (fr, Panicked)
      end
  | EncodeRes =>
      match varRes fr with
      | Some r => (emit (EvEncode r) fr, Next)
      | None => (fr, Panicked)
      end
  end.

Fixpoint execBlock (w : world) (l : list stmt) (fr : frame) : frame * outcome :=
  match l with
  | [] => (fr, Next)
  | s :: rest =>
      match exec w s fr with
      | (fr', Next) => execBlock w rest fr'
      | stop => stop
      end
  end.

Definition newFrame : frame :=
  {| varIn := None; varContent := EmptyString; varErr := None; varRes := None;
     deferred := []; trace := [] |}.

(** One call of a handler: its statements, then the deferred calls, whether
    the body returned, ran to its end or panicked.  The result is the events
    in order and whether the call panicked. *)
Definition serve (w : world) (f : funcDecl) : list event * bool :=
  let '(fr, o) := execBlock w (body f) newFrame in
  ((trace fr ++ deferred fr)%list,
   match o with Panicked => true | _ => false end).

(** Following the spec (section 4.2, unary path): what one call of the
    handler of the unary method [methName] does, by the first step that
    fails. *)
Definition unaryRun (w : world) (methName : string) : list event * bool :=
  let content := fst (readAll w) in
  match snd (readAll w) with
  | Some e =>
      ([EvReadAll; EvWriteHeader 408; EvWrite e; EvLog e; EvClose], false)
  | None =>
      let input := fst (jsonUnmarshal w content (zeroIn w)) in
      match snd (jsonUnmarshal w content (zeroIn w)) with
      | Some e =>
          ([EvReadAll; EvUnmarshal content;
            EvWriteHeader 400; EvWrite e; EvLog e; EvClose], false)
      | None =>
          let res := fst (service w methName input) in
          match snd (service w methName input) with
          | Some e =>
              ([EvReadAll; EvUnmarshal content; EvCall methName input;
                EvWriteHeader 500; EvWrite e; EvLog e; EvClose], false)
          | None =>
              ([EvReadAll; EvUnmarshal content; EvCall methName input;
                EvEncode res; EvClose], false)
          end
      end
  end.

(** Observations on the events of a call. *)
Definition isCall (e : event) : bool :=
  match e with EvCall _ _ => true | _ => false end.
Definition isWriteHeader (e : event) : bool :=
  match e with EvWriteHeader _ => true | _ => false end.
Definition isReadAll (e : event) : bool :=
  match e with EvReadAll => true | _ => false end.
Definition isClose (e : event) : bool :=
  match e with EvClose => true | _ => false end.
Definition isUnmarshal (e : event) : bool :=
  match e with EvUnmarshal _ => true | _ => false end.
Definition isEncode (e : event) : bool :=
  match e with EvEncode _ => true | _ => false end.

End Runtime.

Arguments EvReadAll {In Out}.
Arguments EvClose {In Out}.
Arguments EvWriteHeader {In Out} code.
Arguments EvWrite {In Out} data.
Arguments EvLog {In Out} msg.
Arguments EvUnmarshal {In Out} content.
Arguments EvCall {In Out} methName arg.
Arguments EvEncode {In Out} res.
Arguments serve {In Out} w f.
Arguments unaryRun {In Out} w methName.
Arguments zeroIn {In Out} w.
Arguments readAll {In Out} w.
Arguments jsonUnmarshal {In Out} w content old.
Arguments service {In Out} w methName arg.
Arguments isCall {In Out} e.
Arguments isWriteHeader {In Out} e.
Arguments isReadAll {In Out} e.
Arguments isClose {In Out} e.
Arguments isUnmarshal {In Out} e.
Arguments isEncode {In Out} e.

(** ** Concrete descriptors and worlds *)

(** The service of the end-to-end scenarios: [Echo] with the unary method
    [Say]. *)
Definition echoSay : MethodDescriptorProto :=
  {| GetName := "Say";
     GetInputType := "EchoRequest";
     GetOutputType := "EchoReply";
     GetServerStreaming := false;
     GetClientStreaming := false;
     OptionsString := EmptyString |}.

Definition echo : ServiceDescriptorProto :=
  {| ServiceName := "Echo"; Method := [echoSay] |}.

(** [Say] with the options text [10000:] followed by a quoted path. *)
Definition customOptions : string :=
  "10000:" ++ String quote ("/custom/Path" ++ String quote EmptyString).

Definition echoSayCustom : MethodDescriptorProto :=
  {| GetName := "Say";
     GetInputType := "EchoRequest";
     GetOutputType := "EchoReply";
     GetServerStreaming := false;
     GetClientStreaming := false;
     OptionsString := customOptions |}.

(** A server-streaming method. *)
Definition echoStream : MethodDescriptorProto :=
  {| GetName := "Stream";
     GetInputType := "EchoRequest";
     GetOutputType := "EchoReply";
     GetServerStreaming := true;
     GetClientStreaming := false;
     OptionsString := EmptyString |}.

(** A method and a service named with underscores. *)
Definition sayHello : MethodDescriptorProto :=
  {| GetName := "say_hello";
     GetInputType := "EchoRequest";
     GetOutputType := "EchoReply";
     GetServerStreaming := false;
     GetClientStreaming := false;
     OptionsString := EmptyString |}.

Definition echoService : ServiceDescriptorProto :=
  {| ServiceName := "echo_service"; Method := [echoSay] |}.

(** A service that lists [Say] twice, around a streaming method. *)
Definition echoTwice : ServiceDescriptorProto :=
  {| ServiceName := "Echo"; Method := [echoSay; echoStream; echoSay] |}.

(** Two methods of one service whose names differ and camel-case alike. *)
Definition sayHelloCamel : MethodDescriptorProto :=
  {| GetName := "SayHello";
     GetInputType := "EchoRequest";
     GetOutputType := "EchoReply";
     GetServerStreaming := false;
     GetClientStreaming := false;
     OptionsString := EmptyString |}.

(** Four worlds over messages that are plain strings: the body cannot be
    read; the body is not JSON for the message; the service fails; all goes
    well and the service echoes its argument. *)
Definition worldReadFails : world string string :=
  {| zeroIn := EmptyString;
     readAll := (EmptyString, Some "unexpected EOF");
     jsonUnmarshal := fun content _ => (content, None);
     service := fun _ arg => (arg, None) |}.

Definition worldBadJson : world string string :=
  {| zeroIn := EmptyString;
     readAll := ("{", None);
     jsonUnmarshal := fun _ old => (old, Some "unexpected end of JSON input");
     service := fun _ arg => (arg, None) |}.

Definition worldServiceFails : world string string :=
  {| zeroIn := EmptyString;
     readAll := ("hi", None);
     jsonUnmarshal := fun content _ => (content, None);
     service := fun _ arg => (EmptyString, Some "out of order") |}.

Definition worldEcho : world string string :=
  {| zeroIn := EmptyString;
     readAll := ("hi", None);
     jsonUnmarshal := fun content _ => (content, None);
     service := fun _ arg => (arg, None) |}.

(** [Say] with a second quoted value after the override, with a field in
    front of the override, and [Upload], whose client streams. *)
Definition echoSayTwoValues : MethodDescriptorProto :=
  {| GetName := "Say";
     GetInputType := "EchoRequest";
     GetOutputType := "EchoReply";
     GetServerStreaming := false;
     GetClientStreaming := false;
     OptionsString :=
       customOptions ++ " 10001:" ++ String quote ("x" ++ String quote EmptyString) |}.

Definition echoSayDeprecated : MethodDescriptorProto :=
  {| GetName := "Say";
     GetInputType := "EchoRequest";
     GetOutputType := "EchoReply";
     GetServerStreaming := false;
     GetClientStreaming := false;
     OptionsString := "deprecated:true " ++ customOptions |}.

Definition echoUpload : MethodDescriptorProto :=
  {| GetName := "Upload";
     GetInputType := "EchoRequest";
     GetOutputType := "EchoReply";
     GetServerStreaming := false;
     GetClientStreaming := true;
     OptionsString := EmptyString |}.

(** ** The plugin *)

Section Plugin.

(** What the plugin takes from elsewhere: [generator.CamelCase] and the
    type-naming method [g.typeName] of the generator package, and
    [strings.ToLower] of the Go library. *)
Variable CamelCase : string -> string.
Variable typeName : string -> string.
Variable ToLower : string -> string.

(** The body of the first loop of [generateService] up to the call that
    prints the route: the path of one method.  The default is the lower-cased
    service name, a slash and the method name; the text of the options
    replaces it when it splits at the double quote into three pieces of which
    the first is [10000:]. *)
Definition routePath (servName : string) (method : MethodDescriptorProto) : Gen string :=
  let path := ToLower servName ++ "/" ++ GetName method in
  let m := OptionsString method in
  if negb (m =? EmptyString) then
    let parts := Split m quote in
    if Nat.eqb (List.length parts) 3 then
      part0 <- index parts 0 ;;
      if part0 =? "10000:" then
        index parts 1
      else ret path
    else ret path
  else ret path.

(** One iteration of the first loop of [generateService]. *)
Definition generateRoute (servName : string) (method : MethodDescriptorProto) : Gen unit :=
  path <- routePath servName method ;;
  let methName := CamelCase (GetName method) in
  P ["router.Handle(prefix+" ++ String quote EmptyString; ToLower path;
     String quote EmptyString ++ ", t."; methName; ")"].

(** [generateServerMethod]: prints the handler of one method and returns the
    handler name. *)
Definition generateServerMethod (servName : string) (method : MethodDescriptorProto) : Gen string :=
  let methName := CamelCase (GetName method) in
  let hname := "_" ++ servName ++ "_" ++ methName ++ "_Handler" in
  let inType := typeName (GetInputType method) in
  let outType := typeName (GetOutputType method) in
  P [] ;;
  let serverType := servName ++ "Server" in
  P ["// _"; serverType; "."; methName; "("; inType; ") "; outType] ;;
  P ["func (impl* _"; serverType; " )"; methName;
     "(c web.C, w http.ResponseWriter, r *http.Request) {"] ;;
  (if GetServerStreaming method || GetClientStreaming method then
     P [tab ++ tab ++ "w.WriteHeader(501)"] ;;
     P [tab ++ tab ++ "w.Write([]byte(`Streaming functions over http are not supported`))"] ;;
     P [tab ++ tab ++ "return"]
   else
     P [tab ++ "in := "; inType; "{}"] ;;
     P [tab ++ "content, err := ioutil.ReadAll(r.Body)"] ;;
     P [tab ++ "defer r.Body.Close()"] ;;
     P [tab ++ "if err != nil {"] ;;
     P [tab ++ tab ++ "w.WriteHeader(408)"] ;;
     P [tab ++ tab ++ "w.Write([]byte(err.Error()))"] ;;
     P [tab ++ tab ++ "log.Println(err.Error())"] ;;
     P [tab ++ tab ++ "return"] ;;
     P [tab ++ "}"] ;;
     P [tab ++ "err = json.Unmarshal(content, &in)"] ;;
     P [tab ++ "if err != nil {"] ;;
     P [tab ++ tab ++ "w.WriteHeader(400)"] ;;
     P [tab ++ tab ++ "w.Write([]byte(err.Error()))"] ;;
     P [tab ++ tab ++ "log.Println(err.Error())"] ;;
     P [tab ++ tab ++ "return"] ;;
     P [tab ++ "}"] ;;
     P [tab ++ "res,err := impl.handler."; methName; "(context.TODO(),&in)"] ;;
     P [tab ++ "if err != nil {"] ;;
     P [tab ++ tab ++ "w.WriteHeader(500)"] ;;
     P [tab ++ tab ++ "w.Write([]byte(err.Error()))"] ;;
     P [tab ++ tab ++ "log.Println(err.Error())"] ;;
     P [tab ++ tab ++ "return"] ;;
     P [tab ++ "}"] ;;
     P [tab ++ "json.NewEncoder(w).Encode(res)"]) ;;
  P ["}"] ;;
  P [] ;;
  ret hname.

(** [generateService]: all the code of one service.  The file descriptor and
    the index of the service are not used by the function and are left out. *)
Definition generateService (service : ServiceDescriptorProto) : Gen unit :=
  let origServName := ServiceName service in
  let servName := CamelCase origServName in
  P ["// Server API for "; servName; " service"] ;;
  P [] ;;
  let serverType := servName ++ "Server" in
  P [] ;;
  P ["func New"; servName; "Mux(h "; serverType; ", prefix string) *web.Mux {"] ;;
  P [tab ++ "t := _"; serverType; "{}"] ;;
  P [tab ++ "t.handler = h"] ;;
  P [tab ++ "router := web.New()"] ;;
  forRange (Method service) (generateRoute servName) ;;
  P [tab ++ "return router"] ;;
  P ["}"] ;;
  P [] ;;
  P ["type _"; serverType; " struct {"] ;;
  P [tab ++ "handler "; serverType] ;;
  P ["}"] ;;
  P [] ;;
  forRange (Method service)
    (fun method => _ <- generateServerMethod servName method ;; ret tt).

(** *** What the plugin prints, as Go syntax *)

(** The two bodies [generateServerMethod] prints. *)
Definition rejectBody : list stmt :=
  [WriteHeader 501;
   WriteRaw "Streaming functions over http are not supported";
   Return].

Definition unaryBody (inType methName : string) : list stmt :=
  [NewIn inType;
   ReadAllBody;
   DeferCloseBody;
   IfErr [WriteHeader 408; WriteErr; LogErr; Return];
   Unmarshal;
   IfErr [WriteHeader 400; WriteErr; LogErr; Return];
   CallHandler methName;
   IfErr [WriteHeader 500; WriteErr; LogErr; Return];
   EncodeRes].

(** The condition of the [if] in [generateServerMethod]. *)
Definition isStreaming (method : MethodDescriptorProto) : bool :=
  GetServerStreaming method || GetClientStreaming method.

(** The handler [generateServerMethod] prints for a method. *)
Definition handlerDecl (servName : string) (method : MethodDescriptorProto) : funcDecl :=
  let methName := CamelCase (GetName method) in
  {| recvType := "_" ++ (servName ++ "Server");
     funcName := methName;
     depth := if isStreaming method then 2 else 1;
     body := if isStreaming method then rejectBody
             else unaryBody (typeName (GetInputType method)) methName |}.

(** The comment line printed before it. *)
Definition handlerComment (servName : string) (method : MethodDescriptorProto) : string :=
  concatArgs ["// _"; servName ++ "Server"; "."; CamelCase (GetName method); "(";
              typeName (GetInputType method); ") "; typeName (GetOutputType method)].

(** The name [generateServerMethod] returns. *)
Definition handlerName (servName : string) (method : MethodDescriptorProto) : string :=
  "_" ++ servName ++ "_" ++ CamelCase (GetName method) ++ "_Handler".

(** Following the spec (section 4.1, steps 1 and 2): a text of options
    carries an override when it is not empty, splits at the double quote
    into exactly three parts, and the first part is the sentinel. *)
Definition hasOverride (m override : string) : Prop :=
  m <> EmptyString /\
  exists part0 part2,
    Split m quote = [part0; override; part2] /\ part0 = "10000:".

Definition defaultPath (servName : string) (method : MethodDescriptorProto) : string :=
  ToLower servName ++ "/" ++ GetName method.

Definition overridePath (m : string) : option string :=
  match Split m quote with
  | [part0; part1; _] => if part0 =? "10000:" then Some part1 else None
  | _ => None
  end.

Definition planPath (servName : string) (method : MethodDescriptorProto) : string :=
  match overridePath (OptionsString method) with
  | Some override => override
  | None => defaultPath servName method
  end.

(** The route the first loop of [generateService] prints for a method, and
    all the code of a service. *)
Definition planRoute (servName : string) (method : MethodDescriptorProto) : route :=
  {| routeLit := ToLower (planPath servName method);
     routeHandler := CamelCase (GetName method) |}.

Definition codeOf (service : ServiceDescriptorProto) : serviceCode :=
  let servName := CamelCase (ServiceName service) in
  {| codeName := servName;
     routes := map (planRoute servName) (Method service);
     handlers := map (fun method =>
                        (handlerComment servName method, handlerDecl servName method))
                     (Method service) |}.

(** *** The rest of the plugin *)

(** What the remaining functions take from elsewhere: the package-level
    variable [contextPkg] that [Init] sets, [g.gen.ImportPrefix],
    [strconv.Quote], and [path.Join] of two elements. *)
Variable contextPkg : string.
Variable ImportPrefix : string.
Variable Quote : string -> string.
Variable pathJoin : string -> string -> string.

Definition contextPkgPath : string := "golang.org/x/net/context".

(** [generator.FileDescriptor], with [file.FileDescriptorProto.Service]: the
    services of the file in order. *)
Record FileDescriptor : Type := {
  Service : list ServiceDescriptorProto
}.

(** [Generate]: the code of every service of the file. *)
Definition Generate (file : FileDescriptor) : Gen unit :=
  forRange (Service file) (fun service => generateService service).

(** A string between double quotes, as the source writes its literal import
    lines. *)
Definition quoted (s : string) : string :=
  String quote (s ++ String quote EmptyString).

(** [GenerateImports]: the import declaration, for a file with services. *)
Definition GenerateImports (file : FileDescriptor) : Gen unit :=
  if Nat.eqb (List.length (Service file)) 0 then ret tt
  else
    P ["import ("] ;;
    P [contextPkg; " "; Quote (pathJoin ImportPrefix contextPkgPath)] ;;
    P [quoted "github.com/zenazn/goji/web"] ;;
    P [quoted "net/http"] ;;
    P [quoted "io/ioutil"] ;;
    P [quoted "log"] ;;
    P [quoted "encoding/json"] ;;
    P [")"] ;;
    P [] ;;
    P ["// Reference imports to suppress errors if they are not otherwise used."] ;;
    P ["var _ "; contextPkg; ".Context"] ;;
    P ["var _ web.C"] ;;
    P [].

(** [s[:n]] and [s[n:]]: both panic when [n] is past the end of [s]. *)
Definition sliceTo (s : string) (n : nat) : Gen string :=
  if Nat.leb n (String.length s) then ret (substring 0 n s)
  else Panic "slice bounds out of range".

Definition sliceFrom (s : string) (n : nat) : Gen string :=
  if Nat.leb n (String.length s) then ret (substring n (String.length s - n) s)
  else Panic "slice bounds out of range".

(** [unexport]: the first byte lower-cased, the rest as it is. *)
Definition unexport (s : string) : Gen string :=
  first <- sliceTo s 1 ;;
  rest <- sliceFrom s 1 ;;
  ret (ToLower first ++ rest).

(** [reservedClientName]: a map with no entry.  Reading a Go map at a key it
    does not hold gives the zero value, here [false]. *)
Definition reservedClientName : list (string * bool) := [].

Definition mapIndex (m : list (string * bool)) (key : string) : bool :=
  match find (fun entry => fst entry =? key) m with
  | Some entry => snd entry
  | None => false
  end.

(** [strings.Join(elems, sep)]. *)
Definition Join (elems : list string) (sep : string) : string :=
  String.concat sep elems.

(** [generateServerSignature]: the signature a service implementation has
    for a method. *)
Definition generateServerSignature (servName : string) (method : MethodDescriptorProto) : string :=
  let origMethName := GetName method in
  let methName := CamelCase origMethName in
  let methName :=
    if mapIndex reservedClientName methName then methName ++ "_" else methName in
  let reqArgs : list string := [] in
  let ret := "error" in
  let '(reqArgs, ret) :=
    if negb (GetServerStreaming method) && negb (GetClientStreaming method) then
      (List.app reqArgs [contextPkg ++ ".Context"],
       "(*" ++ typeName (GetOutputType method) ++ ", error)")
    else (reqArgs, ret) in
  let reqArgs :=
    if negb (GetClientStreaming method) then
      List.app reqArgs ["*" ++ typeName (GetInputType method)]
    else reqArgs in
  let reqArgs :=
    if GetServerStreaming method || GetClientStreaming method then
      List.app reqArgs [servName ++ "_" ++ CamelCase origMethName ++ "Server"]
    else reqArgs in
  methName ++ "(" ++ Join reqArgs ", " ++ ") " ++ ret.

(** *** Observations on printed text and on runs *)

(** A printed line that declares a type. *)
Definition isTypeLine (line : string) : bool := String.prefix "type " line.

(** The texts a run wrote to the response with [w.Write], and the texts it
    logged. *)
Definition writtenTexts {In Out : Type} (events : list (event In Out)) : list string :=
  flat_map (fun e => match e with EvWrite data => [data] | _ => [] end) events.

Definition loggedTexts {In Out : Type} (events : list (event In Out)) : list string :=
  flat_map (fun e => match e with EvLog msg => [msg] | _ => [] end) events.

(** An event that sends bytes of the response body. *)
Definition isBodyOutput {In Out : Type} (e : event In Out) : bool :=
  match e with
  | EvWrite _ | EvEncode _ => true
  | _ => false
  end.

(** No status code is set after the first byte of the body has gone out, and
    none is set twice: once a status is set or body bytes are sent, no
    status follows. *)
Fixpoint statusFirst {In Out : Type} (events : list (event In Out)) : bool :=
  match events with
  | [] => true
  | EvWriteHeader _ :: rest => negb (existsb isWriteHeader rest)
  | e :: rest =>
      if isBodyOutput e then negb (existsb isWriteHeader rest)
      else statusFirst rest
  end.

(** A file with the service [Echo]. *)
Definition echoFile : FileDescriptor := {| Service := [echo] |}.

(** ** Facts about the library calls *)

Lemma Split_not_nil s sep : Split s sep <> [].
Proof.
  destruct s as [|c rest]; simpl; [discriminate|].
  destruct (Ascii.eqb c sep); [discriminate|].
  destruct (Split rest sep); discriminate.
Qed.

Lemma Split_length s sep : List.length (Split s sep) = S (count s sep).
Proof.
  induction s as [|c rest IH]; simpl; [reflexivity|].
  destruct (Ascii.eqb c sep); simpl.
  - now rewrite IH.
  - destruct (Split rest sep) as [|piece pieces] eqn:E; simpl in *.
    + discriminate.
    + exact IH.
Qed.

Lemma append_prefix_inj (p a b : string) : p ++ a = p ++ b -> a = b.
Proof.
  induction p as [|c p IH]; simpl; intros H; [exact H|].
  injection H as H. now apply IH.
Qed.

Lemma append_length (a b : string) :
  String.length (a ++ b) = String.length a + String.length b.
Proof. induction a as [|c a IH]; simpl; [reflexivity|now rewrite IH]. Qed.

Lemma append_suffix_inj (a b s : string) : a ++ s = b ++ s -> a = b.
Proof.
  intros H.
  assert (L : String.length a = String.length b).
  { apply (f_equal String.length) in H. rewrite !append_length in H. lia. }
  revert b H L. induction a as [|c a IH]; intros [|d b] H L; simpl in *;
    try discriminate; [reflexivity|].
  injection H as -> H. f_equal. apply IH; [exact H|lia].
Qed.

Lemma flat_map_single {A B : Type} (f : A -> B) xs :
  flat_map (fun x => [f x]) xs = map f xs.
Proof. induction xs as [|x rest IH]; simpl; [reflexivity|now rewrite IH]. Qed.

Lemma flat_map_map {A B C : Type} (f : B -> list C) (g : A -> B) xs :
  flat_map f (map g xs) = flat_map (fun x => f (g x)) xs.
Proof. induction xs as [|x rest IH]; simpl; [reflexivity|now rewrite IH]. Qed.

(** ** Facts about the output monad *)

Lemma forRange_prints {A : Type} (body : A -> Gen unit) (line : A -> list string) xs :
  (forall x, body x = Ok (tt, line x)) ->
  forRange xs body = Ok (tt, flat_map line xs).
Proof.
  intros Hbody. induction xs as [|x rest IH]; simpl; [reflexivity|].
  unfold bind. now rewrite Hbody, IH.
Qed.

(** ** Facts about the plugin *)

Lemma hasOverride_overridePath m override :
  hasOverride m override <-> overridePath m = Some override.
Proof.
  unfold hasOverride, overridePath. split.
  - intros [_ (part0 & part2 & -> & ->)]. reflexivity.
  - destruct (Split m quote) as [|part0 [|part1 [|part2 [|]]]] eqn:E;
      try discriminate.
    destruct (part0 =? "10000:") eqn:E0; [|discriminate].
    intros [= <-]. apply String.eqb_eq in E0. split.
    + intros ->. discriminate.
    + now exists part0, part2.
Qed.

Lemma routePath_plan servName method :
  routePath servName method = Ok (planPath servName method, []).
Proof.
  unfold routePath, planPath, overridePath, defaultPath.
  destruct (OptionsString method) as [|c rest] eqn:Em; [reflexivity|].
  cbn [String.eqb negb].
  destruct (Split (String c rest) quote) as [|part0 [|part1 [|part2 [|]]]];
    try reflexivity.
  cbn. destruct (part0 =? "10000:"); reflexivity.
Qed.

Lemma generateRoute_prints servName method :
  generateRoute servName method = Ok (tt, [printRoute (planRoute servName method)]).
Proof.
  unfold generateRoute. now rewrite routePath_plan.
Qed.

Lemma generateServerMethod_prints servName method :
  generateServerMethod servName method
  = Ok (handlerName servName method,
        printHandler (handlerComment servName method, handlerDecl servName method)).
Proof.
  unfold generateServerMethod, handlerDecl, isStreaming,
    printHandler, printFunc.
  destruct (GetServerStreaming method || GetClientStreaming method); reflexivity.
Qed.

Lemma generateService_prints service :
  generateService service = Ok (tt, printService (codeOf service)).
Proof.
  unfold generateService, printService, codeOf.
  set (servName := CamelCase (ServiceName service)).
  rewrite (forRange_prints (generateRoute servName)
             (fun method => [printRoute (planRoute servName method)])
             (Method service) (generateRoute_prints servName)).
  rewrite (forRange_prints
             (fun method => _ <- generateServerMethod servName method ;; ret tt)
             (fun method => printHandler
                (handlerComment servName method, handlerDecl servName method))
             (Method service)).
  2:{ intros method. rewrite generateServerMethod_prints. simpl.
      now rewrite app_nil_r. }
  cbn [routes handlers codeName].
  rewrite flat_map_single, flat_map_map, map_map.
  generalize (map (fun method => printRoute (planRoute servName method))
                (Method service)) as routeLines.
  generalize (flat_map
                (fun method => printHandler
                   (handlerComment servName method, handlerDecl servName method))
                (Method service)) as handlerLines.
  intros handlerLines routeLines. reflexivity.
Qed.

(** *** The route of a method *)

Lemma planPath_override servName method override :
  hasOverride (OptionsString method) override ->
  planPath servName method = override.
Proof.
  intros H. apply hasOverride_overridePath in H.
  unfold planPath. now rewrite H.
Qed.

Lemma planPath_default servName method :
  (forall override, ~ hasOverride (OptionsString method) override) ->
  planPath servName method = defaultPath servName method.
Proof.
  intros H. unfold planPath.
  destruct (overridePath (OptionsString method)) as [override|] eqn:E;
    [|reflexivity].
  apply hasOverride_overridePath in E. now apply H in E.
Qed.

(** C1.  The path planned for a method is the second part of the text of its
    options when that text is not empty, splits at the double quote into
    exactly three parts and starts with the part [10000:]; for every other
    text it is the default path.  The computation always ends with a path:
    it never panics. *)
Theorem route_path_override_or_default servName method :
  (forall override,
      hasOverride (OptionsString method) override ->
      routePath servName method = Ok (override, [])) /\
  ((forall override, ~ hasOverride (OptionsString method) override) ->
   routePath servName method = Ok (defaultPath servName method, [])) /\
  (exists path, routePath servName method = Ok (path, [])).
Proof.
  rewrite routePath_plan. repeat split.
  - intros override H. now rewrite (planPath_override _ _ _ H).
  - intros H. now rewrite (planPath_default _ _ H).
  - now exists (planPath servName method).
Qed.

(** *** The routes of a service *)

Lemma printRoute_isRouteLine r : isRouteLine (printRoute r) = true.
Proof. reflexivity. Qed.

Lemma printHandler_no_route_line servName method :
  filter isRouteLine
    (printHandler (handlerComment servName method, handlerDecl servName method))
  = [].
Proof.
  unfold printHandler, printFunc, handlerDecl.
  destruct (isStreaming method); reflexivity.
Qed.

Lemma filter_flat_map_nil {A : Type} (keep : string -> bool) (f : A -> list string) xs :
  (forall x, filter keep (f x) = []) ->
  filter keep (flat_map f xs) = [].
Proof.
  intros H. induction xs as [|x rest IH]; simpl; [reflexivity|].
  now rewrite filter_app, H, IH.
Qed.

Lemma filter_map_all {A B : Type} (keep : B -> bool) (f : A -> B) xs :
  (forall x, keep (f x) = true) -> filter keep (map f xs) = map f xs.
Proof.
  intros H. induction xs as [|x rest IH]; simpl; [reflexivity|].
  now rewrite H, IH.
Qed.

Lemma routeLines_printService service :
  filter isRouteLine (printService (codeOf service))
  = map printRoute (routes (codeOf service)).
Proof.
  unfold printService. rewrite !filter_app.
  cbn [codeOf handlers routes codeName].
  rewrite flat_map_map, (filter_flat_map_nil isRouteLine).
  2:{ intros method. apply printHandler_no_route_line. }
  rewrite (filter_map_all isRouteLine printRoute _ printRoute_isRouteLine).
  cbn. now rewrite app_nil_r.
Qed.

Lemma printService_route_line code i r :
  nth_error (routes code) i = Some r ->
  nth_error (printService code) (7 + i) = Some (printRoute r).
Proof.
  intros H. unfold printService. cbn [List.app Nat.add nth_error].
  rewrite nth_error_app1.
  - now rewrite nth_error_map, H.
  - rewrite length_map. apply nth_error_Some. now rewrite H.
Qed.

Lemma generateService_route_line service i method :
  nth_error (Method service) i = Some method ->
  printedLine (generateService service) (7 + i)
  = Some (printRoute (planRoute (CamelCase (ServiceName service)) method)).
Proof.
  intros H. rewrite generateService_prints. cbn [printedLine].
  apply printService_route_line. cbn [codeOf routes].
  now rewrite nth_error_map, H.
Qed.

(** C6.  The code printed for a service registers exactly one route per
    method, streaming methods included, in the order of the descriptor: the
    route lines of the printed text are the routes of the methods, one after
    the other, each bound to the handler printed for that method, which for a
    streaming method is the rejecting one.  Nothing is reordered, dropped or
    checked on the way. *)
Theorem one_route_per_method_in_order service :
  let servName := CamelCase (ServiceName service) in
  generateService service = Ok (tt, printService (codeOf service)) /\
  option_map (filter isRouteLine) (printed (generateService service))
  = Some (map (fun method => printRoute (planRoute servName method))
            (Method service)) /\
  List.length (routes (codeOf service)) = List.length (Method service) /\
  (forall i method,
      nth_error (Method service) i = Some method ->
      printedLine (generateService service) (7 + i)
      = Some (printRoute (planRoute servName method)) /\
      nth_error (handlers (codeOf service)) i
      = Some (handlerComment servName method, handlerDecl servName method) /\
      routeHandler (planRoute servName method)
      = funcName (handlerDecl servName method) /\
      (isStreaming method = true ->
       body (handlerDecl servName method) = rejectBody)).
Proof.
  intros servName. split; [apply generateService_prints|]. split; [|split].
  - rewrite generateService_prints. cbn [printed option_map].
    rewrite routeLines_printService. cbn [codeOf routes].
    now rewrite map_map.
  - cbn [codeOf routes]. apply length_map.
  - intros i method H. repeat split.
    + now apply generateService_route_line.
    + cbn [codeOf handlers]. now rewrite nth_error_map, H.
    + intros Hs. unfold handlerDecl. cbn [body]. now rewrite Hs.
Qed.


(** *** The names of a handler *)

(** C7 (amended).  The name [generateServerMethod] returns is an underscore,
    the service name as given to it (camel-cased by [generateService]), an
    underscore, the camel-cased method name and [_Handler]; there is no
    [Server] part in it.  It depends on the two names alone, and two methods
    of a service get the same name exactly when their camel-cased names are
    the same. *)
Theorem handler_name_from_names servName method :
  returned (generateServerMethod servName method)
  = Some ("_" ++ servName ++ "_" ++ CamelCase (GetName method) ++ "_Handler") /\
  (forall other,
      returned (generateServerMethod servName other)
      = returned (generateServerMethod servName method)
      <-> CamelCase (GetName other) = CamelCase (GetName method)).
Proof.
  split; [now rewrite generateServerMethod_prints|].
  intros other. rewrite !generateServerMethod_prints. cbn [returned].
  unfold handlerName. split.
  - intros [= H]. apply append_prefix_inj in H. injection H as H.
    now apply append_suffix_inj in H.
  - now intros ->.
Qed.

(** C8 (amended).  In the default path the part after the slash is the
    method name of the descriptor, byte for byte.  The handler is named by
    the camel-cased method name, in its declaration and in the route that
    binds it; the two agree with the path segment only for a name that
    camel-casing leaves as it is. *)
Theorem default_path_method_segment servName method :
  (forall override, ~ hasOverride (OptionsString method) override) ->
  routePath servName method
  = Ok (ToLower servName ++ "/" ++ GetName method, []) /\
  generateRoute servName method
  = Ok (tt, [printRoute
               {| routeLit := ToLower (ToLower servName ++ "/" ++ GetName method);
                  routeHandler := CamelCase (GetName method) |}]) /\
  printedLine (generateServerMethod servName method) 2
  = Some (concatArgs ["func (impl* _"; servName ++ "Server"; " )";
                      CamelCase (GetName method);
                      "(c web.C, w http.ResponseWriter, r *http.Request) {"]).
Proof.
  intros H. rewrite routePath_plan, generateRoute_prints, generateServerMethod_prints.
  unfold planRoute. rewrite (planPath_default _ _ H). repeat split.
Qed.

(** ** Facts about the printed handlers at request time *)

Section Requests.

Variables In Out : Type.
Variable w : world In Out.

Lemma serve_unaryBody recv name d inType methName :
  serve w {| recvType := recv; funcName := name; depth := d;
             body := unaryBody inType methName |}
  = unaryRun w methName.
Proof.
  unfold serve, unaryRun, unaryBody. destruct w as [zero [content readErr] decode call].
  cbn. destruct readErr as [e|]; [reflexivity|].
  cbn. destruct (decode content zero) as [input [e|]]; [reflexivity|].
  cbn. destruct (call methName input) as [res [e|]]; reflexivity.
Qed.

Lemma serve_rejectBody recv name d :
  serve w {| recvType := recv; funcName := name; depth := d; body := rejectBody |}
  = ([EvWriteHeader 501;
      EvWrite "Streaming functions over http are not supported"], false).
Proof. reflexivity. Qed.

Lemma serve_unary servName method :
  isStreaming method = false ->
  serve w (handlerDecl servName method) = unaryRun w (CamelCase (GetName method)).
Proof.
  intros H. unfold handlerDecl. rewrite H. apply serve_unaryBody.
Qed.

Lemma serve_streaming servName method :
  isStreaming method = true ->
  serve w (handlerDecl servName method)
  = ([EvWriteHeader 501;
      EvWrite "Streaming functions over http are not supported"], false).
Proof.
  intros H. unfold handlerDecl. rewrite H. apply serve_rejectBody.
Qed.

Lemma isStreaming_either method :
  GetServerStreaming method = true \/ GetClientStreaming method = true ->
  isStreaming method = true.
Proof.
  unfold isStreaming. intros [-> | ->]; [reflexivity|apply orb_true_r].
Qed.

Lemma isStreaming_neither method :
  GetServerStreaming method = false ->
  GetClientStreaming method = false ->
  isStreaming method = false.
Proof. unfold isStreaming. now intros -> ->. Qed.

Lemma unaryRun_closes_last methName :
  exists before,
    unaryRun w methName = ((before ++ [EvClose])%list, false) /\
    existsb isClose before = false /\
    existsb isReadAll before = true.
Proof.
  unfold unaryRun.
  destruct (snd (readAll w)) as [e|].
  { now exists [EvReadAll; EvWriteHeader 408; EvWrite e; EvLog e]. }
  destruct (snd (jsonUnmarshal w (fst (readAll w)) (zeroIn w))) as [e|].
  { now exists [EvReadAll; EvUnmarshal (fst (readAll w));
                EvWriteHeader 400; EvWrite e; EvLog e]. }
  set (input := fst (jsonUnmarshal w (fst (readAll w)) (zeroIn w))).
  destruct (snd (service w methName input)) as [e|].
  - now exists [EvReadAll; EvUnmarshal (fst (readAll w)); EvCall methName input;
                EvWriteHeader 500; EvWrite e; EvLog e].
  - now exists [EvReadAll; EvUnmarshal (fst (readAll w)); EvCall methName input;
                EvEncode (fst (service w methName input))].
Qed.





End Requests.

(** ** More facts about the library calls *)

Lemma count_app a b c : count (a ++ b) c = count a c + count b c.
Proof.
  induction a as [|d a IH]; simpl; [reflexivity|]. rewrite IH. lia.
Qed.

Lemma Split_no_sep s sep : count s sep = 0 -> Split s sep = [s].
Proof.
  induction s as [|c rest IH]; simpl; [reflexivity|].
  destruct (Ascii.eqb c sep); [discriminate|]. simpl. intros H.
  now rewrite (IH H).
Qed.

Lemma Split_app_free a b sep :
  count a sep = 0 ->
  Split (a ++ b) sep
  = match Split b sep with
    | piece :: pieces => (a ++ piece) :: pieces
    | [] => [a ++ b]
    end.
Proof.
  induction a as [|c a IH]; simpl.
  - intros _. destruct (Split b sep) eqn:E; [|reflexivity].
    now apply Split_not_nil in E.
  - destruct (Ascii.eqb c sep); [discriminate|]. simpl. intros H.
    rewrite (IH H). destruct (Split b sep) eqn:E; [|reflexivity].
    now apply Split_not_nil in E.
Qed.

Lemma append_empty_r (a : string) : a ++ EmptyString = a.
Proof. induction a as [|c a IH]; simpl; [reflexivity|now rewrite IH]. Qed.

Lemma Split_at_sep a b sep :
  count a sep = 0 ->
  Split (a ++ String sep b) sep = a :: Split b sep.
Proof.
  intros H. rewrite (Split_app_free _ _ _ H). simpl.
  rewrite Ascii.eqb_refl. now rewrite append_empty_r.
Qed.

Lemma Split_join s sep :
  String.concat (String sep EmptyString) (Split s sep) = s.
Proof.
  induction s as [|c rest IH]; simpl; [reflexivity|].
  destruct (Ascii.eqb c sep) eqn:E.
  - apply Ascii.eqb_eq in E. subst c.
    destruct (Split rest sep) as [|piece pieces] eqn:Es.
    + now apply Split_not_nil in Es.
    + simpl. simpl in IH. now rewrite IH.
  - destruct (Split rest sep) as [|piece pieces] eqn:Es.
    + now apply Split_not_nil in Es.
    + simpl in *. destruct pieces; simpl in *; now rewrite IH.
Qed.

Lemma Split_pieces_free s sep :
  Forall (fun piece => count piece sep = 0) (Split s sep).
Proof.
  induction s as [|c rest IH]; simpl.
  - now constructor.
  - destruct (Ascii.eqb c sep) eqn:E.
    + now constructor.
    + destruct (Split rest sep) as [|piece pieces]; [now repeat constructor; simpl; rewrite E|].
      inversion IH; subst. constructor; [|assumption].
      simpl. now rewrite E.
Qed.

Lemma append_assoc (a b c : string) : (a ++ b) ++ c = a ++ (b ++ c).
Proof. induction a as [|d a IH]; simpl; [reflexivity|now rewrite IH]. Qed.

Lemma prefix_append (a b : string) : String.prefix a (a ++ b) = true.
Proof.
  induction a as [|c a IH]; simpl; [now destruct b|].
  destruct (ascii_dec c c) as [_|N]; [exact IH|now elim N].
Qed.

Lemma prefix_append_more (a b c : string) :
  String.prefix (a ++ b) (a ++ b ++ c) = true.
Proof. rewrite <- append_assoc. apply prefix_append. Qed.

Lemma substring_all (s : string) : substring 0 (String.length s) s = s.
Proof. induction s as [|c s IH]; simpl; [reflexivity|now rewrite IH]. Qed.

Lemma substring_none (s : string) : substring 0 0 s = EmptyString.
Proof. now destruct s. Qed.

Lemma filter_flat_map {A B : Type} (keep : B -> bool) (f : A -> list B) xs :
  filter keep (flat_map f xs) = flat_map (fun x => filter keep (f x)) xs.
Proof.
  induction xs as [|x rest IH]; simpl; [reflexivity|].
  now rewrite filter_app, IH.
Qed.

Lemma length_flat_map {A B : Type} (f : A -> list B) xs :
  List.length (flat_map f xs) = list_sum (map (fun x => List.length (f x)) xs).
Proof.
  induction xs as [|x rest IH]; simpl; [reflexivity|].
  now rewrite length_app, IH.
Qed.

(** ** More facts about the route of a method *)

Lemma hasOverride_pieces m override :
  hasOverride m override ->
  exists rest, Split m quote = ["10000:"; override; rest].
Proof. intros [_ (part0 & part2 & E & ->)]. now exists part2. Qed.

(** X1.  The override is taken exactly from a text of options that is the
    sentinel, a quoted path, and a rest, where neither the path nor the rest
    holds a double quote: such a text gives the path between the quotes, and
    whenever [routePath] returns something other than the default path the
    text has this form. *)
Theorem override_text_form servName method override :
  (forall rest,
      OptionsString method
      = "10000:" ++ String quote (override ++ String quote rest) ->
      count override quote = 0 ->
      count rest quote = 0 ->
      routePath servName method = Ok (override, [])) /\
  (routePath servName method = Ok (override, []) ->
   override <> defaultPath servName method ->
   exists rest,
     OptionsString method
     = "10000:" ++ String quote (override ++ String quote rest) /\
     count override quote = 0 /\
     count rest quote = 0).
Proof.
  split.
  - intros rest E Ho Hr. rewrite routePath_plan.
    rewrite (planPath_override servName method override); [reflexivity|].
    rewrite E. split; [discriminate|].
    exists "10000:", rest. split; [|reflexivity].
    rewrite (Split_at_sep "10000:" _ quote eq_refl).
    rewrite (Split_at_sep override rest quote Ho).
    now rewrite (Split_no_sep rest quote Hr).
  - rewrite routePath_plan. intros [= E] Hd. unfold planPath in E.
    destruct (overridePath (OptionsString method)) as [found|] eqn:Eo;
      [|now elim Hd].
    subst found. apply hasOverride_overridePath in Eo.
    destruct (hasOverride_pieces _ _ Eo) as (rest & Es).
    exists rest.
    pose proof (Split_join (OptionsString method) quote) as J.
    pose proof (Split_pieces_free (OptionsString method) quote) as F.
    rewrite Es in J, F. simpl in J.
    inversion F as [|? ? _ F1]; subst. inversion F1 as [|? ? Ho F2]; subst.
    inversion F2 as [|? ? Hr _]; subst.
    now rewrite <- J.
Qed.

(** X2.  A text of options that does not hold exactly two double quotes
    never overrides: the method gets the default path.  So an override is
    lost as soon as the options hold a second quoted value. *)
Theorem other_quote_counts_use_default servName method :
  count (OptionsString method) quote <> 2 ->
  routePath servName method = Ok (defaultPath servName method, []).
Proof.
  intros H. rewrite routePath_plan, planPath_default; [reflexivity|].
  intros override Ho. apply hasOverride_pieces in Ho as (rest & Es).
  apply H. pose proof (Split_length (OptionsString method) quote) as L.
  rewrite Es in L. simpl in L. lia.
Qed.

(** X3.  Text in front of the sentinel disables the override: when the text
    of options is a non-empty stretch without double quote, then the
    sentinel, then anything, the method gets the default path. *)
Theorem text_before_sentinel_uses_default servName method before after :
  before <> EmptyString ->
  count before quote = 0 ->
  OptionsString method = before ++ "10000:" ++ after ->
  routePath servName method = Ok (defaultPath servName method, []).
Proof.
  intros Hne Hfree E. rewrite routePath_plan, planPath_default; [reflexivity|].
  intros override Ho. apply hasOverride_pieces in Ho as (rest & Es).
  rewrite E in Es.
  rewrite (Split_app_free before _ quote Hfree) in Es.
  rewrite (Split_app_free "10000:" after quote eq_refl) in Es.
  destruct (Split after quote) as [|piece pieces] eqn:Ea.
  - now apply Split_not_nil in Ea.
  - injection Es as E0 _. apply (f_equal String.length) in E0.
    rewrite !append_length in E0. simpl in E0.
    destruct before; [now elim Hne|]. simpl in E0. lia.
Qed.

(** ** Facts about the files *)

Lemma Generate_prints file :
  Generate file
  = Ok (tt, flat_map (fun service => printService (codeOf service)) (Service file)).
Proof.
  unfold Generate. apply forRange_prints. intros service.
  apply generateService_prints.
Qed.

(** X4.  [Generate] never panics and prints one route line for every method
    of every service of the file, and no other: the number of route lines in
    its output is the number of methods of the file. *)
Theorem Generate_route_lines file :
  option_map (filter isRouteLine) (printed (Generate file))
  = Some (flat_map
            (fun service =>
               map (fun method =>
                      printRoute (planRoute (CamelCase (ServiceName service)) method))
                 (Method service))
            (Service file)) /\
  option_map (fun lines => List.length (filter isRouteLine lines))
    (printed (Generate file))
  = Some (list_sum (map (fun service => List.length (Method service))
                      (Service file))).
Proof.
  rewrite Generate_prints. cbn [printed option_map].
  rewrite filter_flat_map.
  assert (E : forall service,
             filter isRouteLine (printService (codeOf service))
             = map (fun method =>
                      printRoute (planRoute (CamelCase (ServiceName service)) method))
                 (Method service)).
  { intros service. rewrite routeLines_printService.
    cbn [codeOf routes]. apply map_map. }
  split.
  - f_equal. apply flat_map_ext. exact E.
  - f_equal. rewrite length_flat_map. f_equal. apply map_ext.
    intros service. now rewrite E, length_map.
Qed.


(** X6.  The code printed for a service declares one type only, the struct
    that holds the implementation; the interface [<S>Server] that the struct
    and the router constructor refer to is not declared by the plugin. *)
Theorem only_the_struct_is_declared service :
  option_map (filter isTypeLine) (printed (generateService service))
  = Some [concatArgs ["type _"; CamelCase (ServiceName service) ++ "Server";
                      " struct {"]].
Proof.
  rewrite generateService_prints. cbn [printed option_map]. f_equal.
  unfold printService. rewrite !filter_app.
  cbn [codeOf handlers routes codeName].
  rewrite flat_map_map, (filter_flat_map_nil isTypeLine).
  2:{ intros method. unfold printHandler, printFunc, handlerDecl.
      destruct (isStreaming method); reflexivity. }
  rewrite map_map.
  assert (E : forall (methods : list MethodDescriptorProto) f,
             filter isTypeLine (map (fun method => printRoute (f method)) methods) = []).
  { intros methods f. induction methods as [|m rest IH]; simpl; [reflexivity|].
    exact IH. }
  rewrite E. reflexivity.
Qed.

(** ** Facts about [unexport] and the signature *)

(** X7.  [unexport] panics on the empty string and on no other: on a string
    with a first byte it returns the lower-cased first byte followed by all
    the other bytes unchanged. *)
Theorem unexport_first_byte_only :
  (forall s, returned (unexport s) = None <-> s = EmptyString) /\
  (forall c rest,
      unexport (String c rest) = Ok (ToLower (String c EmptyString) ++ rest, [])).
Proof.
  assert (E : forall c rest,
             unexport (String c rest)
             = Ok (ToLower (String c EmptyString) ++ rest, [])).
  { intros c rest. unfold unexport, sliceTo, sliceFrom. cbn.
    now rewrite Nat.sub_0_r, substring_all, substring_none. }
  split; [|exact E].
  intros [|c rest]; [now split|].
  rewrite E. cbn. split; discriminate.
Qed.

(** X8.  The signature of a method by its streaming mode.  A unary method
    takes the context and the request and returns the reply and an error; a
    method whose server alone streams takes the request and the stream; a
    method whose client streams takes the stream alone.  The method name is
    the camel-cased name in every case: no name is reserved. *)
Theorem signature_by_streaming_mode servName method :
  let name := CamelCase (GetName method) in
  let request := typeName (GetInputType method) in
  let reply := typeName (GetOutputType method) in
  (GetServerStreaming method = false ->
   GetClientStreaming method = false ->
   generateServerSignature servName method
   = name ++ "(" ++ contextPkg ++ ".Context, *" ++ request
       ++ ") (*" ++ reply ++ ", error)") /\
  (GetServerStreaming method = true ->
   GetClientStreaming method = false ->
   generateServerSignature servName method
   = name ++ "(*" ++ request ++ ", " ++ servName ++ "_" ++ name
       ++ "Server) error") /\
  (GetClientStreaming method = true ->
   generateServerSignature servName method
   = name ++ "(" ++ servName ++ "_" ++ name ++ "Server) error").
Proof.
  intros name request reply. unfold generateServerSignature.
  fold name request reply. cbn [reservedClientName mapIndex find].
  split; [|split].
  - intros -> ->. cbn.
    repeat first [rewrite !append_assoc | progress cbn]. reflexivity.
  - intros -> ->. cbn.
    repeat first [rewrite !append_assoc | progress cbn]. reflexivity.
  - intros ->. rewrite andb_false_r, orb_true_r. cbn.
    repeat first [rewrite !append_assoc | progress cbn]. reflexivity.
Qed.

(** X9.  The handler printed for a unary method calls the implementation
    under the very name its signature starts with, and the route binds the
    handler of that name. *)
Theorem handler_calls_the_signed_method servName method :
  GetServerStreaming method = false ->
  GetClientStreaming method = false ->
  let name := CamelCase (GetName method) in
  String.prefix (name ++ "(") (generateServerSignature servName method) = true /\
  printedLine (generateServerMethod servName method) 19
  = Some (concatArgs [tab ++ "res,err := impl.handler."; name;
                      "(context.TODO(),&in)"]) /\
  generateRoute servName method
  = Ok (tt, [printRoute {| routeLit := ToLower (planPath servName method);
                           routeHandler := name |}]).
Proof.
  intros Hs Hc name. split; [|split].
  - unfold generateServerSignature. cbn [reservedClientName mapIndex find].
    fold name. rewrite Hs, Hc. cbn [negb andb orb].
    apply (prefix_append_more name "(").
  - unfold generateServerMethod. rewrite Hs, Hc. reflexivity.
  - apply generateRoute_prints.
Qed.

Section Runs.

Variables In Out : Type.
Variable w : world In Out.




End Runs.

End Plugin.

(** ** The default path, end to end *)

(** C2 (amended).  For a method with no recognised override the route printed
    by [generateService] carries the lower-cased default path, and the
    default path is the lower-cased camel-cased service name, a slash and the
    method name.  Whatever path is chosen, default or override, it is
    lower-cased when the route is printed.  Service [Echo] with method [Say]
    and no override gets the route [echo/say]. *)
Theorem default_route_path :
  (forall CamelCase typeName ToLower service method i,
      nth_error (Method service) i = Some method ->
      (forall override, ~ hasOverride (OptionsString method) override) ->
      routePath ToLower (CamelCase (ServiceName service)) method
      = Ok (ToLower (CamelCase (ServiceName service)) ++ "/" ++ GetName method, []) /\
      printedLine (generateService CamelCase typeName ToLower service) (7 + i)
      = Some (printRoute
                {| routeLit :=
                     ToLower (ToLower (CamelCase (ServiceName service))
                                ++ "/" ++ GetName method);
                   routeHandler := CamelCase (GetName method) |})) /\
  (forall CamelCase ToLower servName method,
      exists path,
        routePath ToLower servName method = Ok (path, []) /\
        generateRoute CamelCase ToLower servName method
        = Ok (tt, [printRoute {| routeLit := ToLower path;
                                 routeHandler := CamelCase (GetName method) |}])) /\
  printedLine (generateService camelCase (fun t => t) asciiToLower echo) 7
  = Some (printRoute {| routeLit := "echo/say"; routeHandler := "Say" |}).
Proof.
  repeat split.
  - rewrite routePath_plan. now rewrite (planPath_default _ _ _ H0).
  - rewrite (generateService_route_line _ _ _ _ _ _ H).
    unfold planRoute. now rewrite (planPath_default _ _ _ H0).
  - intros CamelCase ToLower servName method.
    exists (planPath ToLower servName method).
    split; [apply routePath_plan|apply generateRoute_prints].
Qed.

(** ** The theorems at concrete descriptors and requests *)

Lemma no_override_when_empty method :
  OptionsString method = EmptyString ->
  forall override, ~ hasOverride (OptionsString method) override.
Proof. intros E override [H _]. now apply H. Qed.

Lemma route_path_override_or_default_witness :
  routePath asciiToLower "Echo" echoSayCustom = Ok ("/custom/Path", []) /\
  routePath asciiToLower "Echo" echoSay = Ok ("echo/Say", []).
Proof.
  split.
  - apply (proj1 (route_path_override_or_default asciiToLower "Echo" echoSayCustom)).
    split; [discriminate|].
    exists "10000:", EmptyString. split; reflexivity.
  - apply (proj1 (proj2 (route_path_override_or_default asciiToLower "Echo" echoSay))).
    apply no_override_when_empty. reflexivity.
Defined.

Lemma default_route_path_witness :
  routePath asciiToLower (camelCase "Echo") echoSay = Ok ("echo/Say", []) /\
  printedLine (generateService camelCase (fun t => t) asciiToLower echo) 7
  = Some (printRoute {| routeLit := "echo/say"; routeHandler := "Say" |}).
Proof.
  apply (proj1 default_route_path camelCase (fun t => t) asciiToLower echo echoSay 0).
  - reflexivity.
  - apply no_override_when_empty. reflexivity.
Defined.

(** The claim C2 as stated fails for a service name that camel-casing
    changes: the route of [echo_service] starts with [echoservice], not with
    the lower-cased name of the descriptor. *)
Lemma default_route_path_counterexample :
  printedLine (generateService camelCase (fun t => t) asciiToLower echoService) 7
  = Some (printRoute {| routeLit := "echoservice/say"; routeHandler := "Say" |}) /\
  routePath asciiToLower (camelCase (ServiceName echoService)) echoSay
  = Ok ("echoservice/Say", []) /\
  asciiToLower (ServiceName echoService) ++ "/" ++ GetName echoSay
  = "echo_service/Say" /\
  "echoservice/Say" <> "echo_service/Say".
Proof.
  split; [reflexivity|]. split; [reflexivity|]. split; [reflexivity|discriminate].
Qed.




Lemma one_route_per_method_in_order_witness :
  option_map (filter isRouteLine)
    (printed (generateService camelCase (fun t => t) asciiToLower echoTwice))
  = Some [printRoute {| routeLit := "echo/say"; routeHandler := "Say" |};
          printRoute {| routeLit := "echo/stream"; routeHandler := "Stream" |};
          printRoute {| routeLit := "echo/say"; routeHandler := "Say" |}] /\
  body (handlerDecl camelCase (fun t => t) "Echo" echoStream) = rejectBody.
Proof.
  split.
  - apply (proj1 (proj2 (one_route_per_method_in_order camelCase (fun t => t)
                           asciiToLower echoTwice))).
  - apply (proj2 (proj2 (proj2 (one_route_per_method_in_order camelCase (fun t => t)
                                  asciiToLower echoTwice))) 1 echoStream eq_refl).
    reflexivity.
Defined.

Lemma handler_name_from_names_witness :
  returned (generateServerMethod camelCase (fun t => t) "Echo" sayHello)
  = returned (generateServerMethod camelCase (fun t => t) "Echo" sayHelloCamel).
Proof.
  apply (proj2 (proj2 (handler_name_from_names camelCase (fun t => t)
                         "Echo" sayHelloCamel) sayHello)).
  transitivity "SayHello"; reflexivity.
Defined.

(** The claim C7 as stated fails: the name has no [Server] part, and two
    methods of one service whose names camel-case alike share it. *)
Lemma handler_name_counterexample :
  returned (generateServerMethod camelCase (fun t => t)
              (camelCase (ServiceName echo)) echoSay)
  = Some "_Echo_Say_Handler" /\
  "_Echo_Say_Handler" <> "_EchoServer_Say_Handler" /\
  GetName sayHello <> GetName sayHelloCamel /\
  returned (generateServerMethod camelCase (fun t => t) "Echo" sayHello)
  = Some "_Echo_SayHello_Handler" /\
  returned (generateServerMethod camelCase (fun t => t) "Echo" sayHelloCamel)
  = Some "_Echo_SayHello_Handler".
Proof.
  split; [reflexivity|]. split; [discriminate|]. split; [discriminate|].
  split; reflexivity.
Qed.

Lemma default_path_method_segment_witness :
  routePath asciiToLower "Echo" sayHello = Ok ("echo/say_hello", []) /\
  generateRoute camelCase asciiToLower "Echo" sayHello
  = Ok (tt, [printRoute {| routeLit := "echo/say_hello";
                           routeHandler := "SayHello" |}]) /\
  printedLine (generateServerMethod camelCase (fun t => t) "Echo" sayHello) 2
  = Some "func (impl* _EchoServer )SayHello(c web.C, w http.ResponseWriter, r *http.Request) {".
Proof.
  apply (default_path_method_segment camelCase (fun t => t) asciiToLower
           "Echo" sayHello).
  apply no_override_when_empty. reflexivity.
Defined.

(** The claim C8 as stated fails for a method name that camel-casing
    changes: the path segment is [say_hello], the handler is [SayHello]. *)
Lemma default_path_method_segment_counterexample :
  routePath asciiToLower "Echo" sayHello = Ok ("echo/" ++ "say_hello", []) /\
  printedLine (generateServerMethod camelCase (fun t => t) "Echo" sayHello) 2
  = Some ("func (impl* _EchoServer )" ++ "SayHello"
            ++ "(c web.C, w http.ResponseWriter, r *http.Request) {") /\
  printedLine (generateRoute camelCase asciiToLower "Echo" sayHello) 0
  = Some (printRoute {| routeLit := "echo/say_hello"; routeHandler := "SayHello" |}) /\
  "say_hello" <> "SayHello".
Proof.
  split; [reflexivity|]. split; [reflexivity|]. split; [reflexivity|discriminate].
Qed.



(** ** More facts at the ASCII instance *)

Lemma lowerByte_idempotent c : lowerByte (lowerByte c) = lowerByte c.
Proof.
  destruct c as [b0 b1 b2 b3 b4 b5 b6 b7].
  destruct b0, b1, b2, b3, b4, b5, b6, b7; reflexivity.
Qed.

Lemma asciiToLower_app a b :
  asciiToLower (a ++ b) = asciiToLower a ++ asciiToLower b.
Proof. induction a as [|c a IH]; simpl; [reflexivity|now rewrite IH]. Qed.


(** X14.  With ASCII lower-casing, two methods of a service that carry no
    override are registered under the same path exactly when their names are
    equal up to the case of the letters; nothing in the plugin keeps such
    routes apart. *)
Theorem same_route_iff_same_lowercase_name CamelCase servName method other :
  (forall override, ~ hasOverride (OptionsString method) override) ->
  (forall override, ~ hasOverride (OptionsString other) override) ->
  exists lit lit',
    generateRoute CamelCase asciiToLower servName method
    = Ok (tt, [printRoute {| routeLit := lit;
                             routeHandler := CamelCase (GetName method) |}]) /\
    generateRoute CamelCase asciiToLower servName other
    = Ok (tt, [printRoute {| routeLit := lit';
                             routeHandler := CamelCase (GetName other) |}]) /\
    (lit = lit' <-> asciiToLower (GetName method) = asciiToLower (GetName other)).
Proof.
  intros Hm Ho.
  exists (asciiToLower (planPath asciiToLower servName method)),
         (asciiToLower (planPath asciiToLower servName other)).
  split; [apply generateRoute_prints|]. split; [apply generateRoute_prints|].
  rewrite (planPath_default _ _ _ Hm), (planPath_default _ _ _ Ho).
  unfold defaultPath. rewrite !asciiToLower_app. split.
  - intros H. apply append_prefix_inj in H. now injection H.
  - now intros ->.
Qed.

(** ** The further theorems at concrete inputs *)

Lemma override_text_form_witness :
  routePath asciiToLower "Echo" echoSayCustom = Ok ("/custom/Path", []) /\
  exists rest,
    OptionsString echoSayCustom
    = "10000:" ++ String quote ("/custom/Path" ++ String quote rest) /\
    count "/custom/Path" quote = 0 /\
    count rest quote = 0.
Proof.
  split.
  - apply (proj1 (override_text_form asciiToLower "Echo" echoSayCustom
                    "/custom/Path") EmptyString); reflexivity.
  - apply (proj2 (override_text_form asciiToLower "Echo" echoSayCustom
                    "/custom/Path")); [reflexivity|discriminate].
Defined.

Lemma other_quote_counts_use_default_witness :
  routePath asciiToLower "Echo" echoSayTwoValues = Ok ("echo/Say", []).
Proof.
  apply (other_quote_counts_use_default asciiToLower "Echo" echoSayTwoValues).
  discriminate.
Defined.

Lemma text_before_sentinel_uses_default_witness :
  routePath asciiToLower "Echo" echoSayDeprecated = Ok ("echo/Say", []).
Proof.
  apply (text_before_sentinel_uses_default asciiToLower "Echo" echoSayDeprecated
           "deprecated:true "
           (String quote ("/custom/Path" ++ String quote EmptyString)));
    [discriminate|reflexivity|reflexivity].
Defined.


Lemma signature_by_streaming_mode_witness :
  generateServerSignature camelCase (fun t => t) "context" "Echo" echoSay
  = "Say(context.Context, *EchoRequest) (*EchoReply, error)" /\
  generateServerSignature camelCase (fun t => t) "context" "Echo" echoStream
  = "Stream(*EchoRequest, Echo_StreamServer) error" /\
  generateServerSignature camelCase (fun t => t) "context" "Echo" echoUpload
  = "Upload(Echo_UploadServer) error".
Proof.
  split; [|split].
  - apply (proj1 (signature_by_streaming_mode camelCase (fun t => t) "context"
                    "Echo" echoSay)); reflexivity.
  - apply (proj1 (proj2 (signature_by_streaming_mode camelCase (fun t => t)
                           "context" "Echo" echoStream))); reflexivity.
  - apply (proj2 (proj2 (signature_by_streaming_mode camelCase (fun t => t)
                           "context" "Echo" echoUpload))); reflexivity.
Defined.

Lemma handler_calls_the_signed_method_witness :
  String.prefix "Say("
    (generateServerSignature camelCase (fun t => t) "context" "Echo" echoSay)
  = true.
Proof.
  apply (handler_calls_the_signed_method camelCase (fun t => t) asciiToLower
           "context" "Echo" echoSay); reflexivity.
Defined.


Lemma same_route_iff_same_lowercase_name_witness :
  exists lit lit',
    generateRoute camelCase asciiToLower "Echo" sayHelloCamel
    = Ok (tt, [printRoute {| routeLit := lit; routeHandler := "SayHello" |}]) /\
    generateRoute camelCase asciiToLower "Echo" echoSay
    = Ok (tt, [printRoute {| routeLit := lit'; routeHandler := "Say" |}]) /\
    (lit = lit' <-> "sayhello" = "say").
Proof.
  apply (same_route_iff_same_lowercase_name camelCase "Echo" sayHelloCamel echoSay);
    apply no_override_when_empty; reflexivity.
Defined.
